(** * douyin-mcp-server: the HTTP tool wrappers of [server_http.py]

    A shallow embedding of the two MCP tools [get_douyin_download_link] and
    [extract_douyin_text] and of the start-up block of [server_http.py].

    Python strings are modelled as [string]; a literal holds the UTF-8
    encoding of the source text, so ["错误："] is a string of nine bytes.
    A Python prefix test on well-formed text coincides with the byte-wise
    prefix test on its encoding. *)

From Stdlib Require Import ZArith NArith Ascii String List Lia.
From stdpp Require Import base decidable option list strings pretty gmap.

Set Warnings "-register-all".

(** ** Python values and exceptions *)

Module Py.

(** The values that cross the tool boundary.  A dict keeps its insertion
    order, so it is a list of bindings. *)
Inductive value : Type :=
| VNone
| VInt (n : Z)
| VStr (s : string)
| VDict (items : list (string * value)).





(** The part of the exception hierarchy that [except Exception] is
    sensitive to: [Exception] and its subclasses on one side, the
    system-exiting classes that derive from [BaseException] only on the
    other. *)
Inductive exn_class : Type :=
| ExceptionSub (name : string)
| KeyboardInterrupt
| SystemExit
| GeneratorExit.

(** An exception object that has a text: its class and the string that
    [str(e)] returns.  An exception whose [__str__] raises, or returns
    something that is not a string, is not of this type: see
    [RaiseUnprintable] below. *)
Record exn : Type := Exn { exn_cls : exn_class; exn_str : string }.

(** [isinstance(e, Exception)] *)
Definition isinstance_Exception (e : exn) : bool :=
  match exn_cls e with
  | ExceptionSub _ => true
  | _ => false
  end.

(** The text of an exception that has one: what [str(e)] returns. *)
Definition str (e : exn) : string := exn_str e.

(** How a call ends: it returns a value, or an exception leaves it.  The
    exception is one with a text ([Raise]), or an instance of [Exception]
    on which the call [str(e)] does not return but raises [e'], the
    [TypeError] of Python when [__str__] returns a non-string included
    ([RaiseUnprintable]).  An exception outside [Exception] is never
    passed to [str] by this program, so it always counts as one with a
    text. *)
Inductive outcome (A : Type) : Type :=
| Return (a : A)
| Raise (e : exn)
| RaiseUnprintable (e' : exn).
Arguments Return {A} a.
Arguments Raise {A} e.
Arguments RaiseUnprintable {A} e'.

(** The object that [except Exception as e] binds. *)
Inductive caught : Type :=
| Printable (e : exn)
| Unprintable (e' : exn).

(** The call [str(e)] on a caught exception. *)
Definition call_str (c : caught) : outcome string :=
  match c with
  | Printable e => Return (str e)
  | Unprintable e' => Raise e'
  end.

(** Truthiness of the result of [os.getenv]: [None] and [""] are falsy. *)
Definition truthy (o : option string) : bool :=
  match o with
  | None => false
  | Some "" => false
  | Some _ => true
  end.

End Py.

Import Py.

(** ** The world a tool call runs in, and the effects it has *)

(** What a tool call does that can be observed from outside: reading the
    process environment, running an import statement, calling into the
    pipeline module (the only code that touches the network). *)
Inductive event : Type :=
| EvGetenv (key : string)
| EvImport (module name : string)
| EvCall (func : string) (args : list string).

Definition is_getenv (ev : event) : bool :=
  match ev with EvGetenv _ => true | _ => false end.

Definition is_pipeline (ev : event) : bool :=
  match ev with EvImport _ _ | EvCall _ _ => true | EvGetenv _ => false end.

Section Tools.

(** [U] is the state of everything upstream of the process: the video
    platform and the speech-recognition service. *)
Context {U : Type}.

(** The module [douyin_mcp_server.douyin_api] is not part of this file: it
    is a parameter.  Each [from ... import name] statement either binds the
    function or raises; a bound function returns a value or raises,
    depending on its arguments and on the upstream state.  The arguments
    of [extract_text] are [share_link], [api_key] and [model]. *)
Record douyin_api : Type := DouyinApi {
  import_get_download_link : outcome (U → string → outcome value);
  import_extract_text : outcome (U → string → string → string → outcome value)
}.

Record world : Type := World {
  environ : gmap string string;
  upstream : U
}.

(** Computations: they read the world, log their events, and end in a
    value or in an exception. *)
Definition M (A : Type) : Type := world → list event * outcome A.

#[global] Instance M_ret : MRet M := λ A a _, ([], Return a).

#[global] Instance M_bind : MBind M := λ A B f m w,
  match m w with
  | (t, Return a) => let '(t', r) := f a w in (t ++ t', r)
  | (t, Raise e) => (t, Raise e)
  | (t, RaiseUnprintable e) => (t, RaiseUnprintable e)
  end.

(** [try: body / except Exception as e: handler]: only instances of
    [Exception] are caught; what the handler raises leaves the
    statement. *)
Definition try_except {A} (body : M A) (handler : caught → M A) : M A := λ w,
  match body w with
  | (t, Return a) => (t, Return a)
  | (t, Raise e) =>
      if isinstance_Exception e
      then let '(t', r) := handler (Printable e) w in (t ++ t', r)
      else (t, Raise e)
  | (t, RaiseUnprintable e') =>
      let '(t', r) := handler (Unprintable e') w in (t ++ t', r)
  end.

(** [str(e)] *)
Definition py_str (e : caught) : M string := λ _, ([], call_str e).

(** [os.getenv(key)] *)
Definition os_getenv (key : string) : M (option string) := λ w,
  ([EvGetenv key], Return (environ w !! key)).

(** [from module import name] *)
Definition import_from {F} (module name : string) (bound : outcome F) : M F :=
  λ _, ([EvImport module name], bound).

(** A call of a pipeline function with the given arguments. *)
Definition call (func : string) (args : list string)
    (run : U → outcome value) : M value :=
  λ w, ([EvCall func args], run (upstream w)).

(** In the branch where [api_key] is truthy it is a [str]. *)
Definition as_str (o : option string) : string := default "" o.

Variable api : douyin_api.

Definition get_douyin_download_link (share_link : string) : M value :=
  try_except
    (get_download_link ←
       import_from "douyin_mcp_server.douyin_api" "get_download_link"
         (import_get_download_link api);
     result ← call "get_download_link" [share_link]
                (λ u, get_download_link u share_link);
     mret result)
    (λ e, text ← py_str e;
          mret (VDict [("error", VStr text);
                       ("message", VStr "获取下载链接失败")])).

Definition missing_key_message : string :=
  "错误：未设置 DASHSCOPE_API_KEY 环境变量，请在部署时配置阿里云百炼 API 密钥".

Definition extract_douyin_text (share_link model : string) : M value :=
  try_except
    (api_key ← os_getenv "DASHSCOPE_API_KEY";
     if negb (truthy api_key) then mret (VStr missing_key_message)
     else
       extract_text ←
         import_from "douyin_mcp_server.douyin_api" "extract_text"
           (import_extract_text api);
       result ← call "extract_text" [share_link; as_str api_key; model]
                  (λ u, extract_text u share_link (as_str api_key) model);
       mret result)
    (λ e, text ← py_str e;
          mret (VStr ("错误：" +:+ text))).

(** The signature [model: str = "paraformer-v2"]: a call that leaves
    [model] out binds the default. *)
Definition extract_douyin_text_model_default : string := "paraformer-v2".

Definition extract_douyin_text_call (share_link : string)
    (model : option string) : M value :=
  extract_douyin_text share_link
    (default extract_douyin_text_model_default model).

End Tools.

Arguments douyin_api : clear implicits.
Arguments world : clear implicits.
Arguments M : clear implicits.

(** ** Requests served by the running process *)

Inductive request : Type :=
| ReqDownloadLink (share_link : string)
| ReqExtractText (share_link : string) (model : option string).

(** The protocol layer routes a tool invocation to the function registered
    under that name. *)
Definition dispatch {U} (api : douyin_api U) (r : request) : M U value :=
  match r with
  | ReqDownloadLink share_link => get_douyin_download_link api share_link
  | ReqExtractText share_link model =>
      extract_douyin_text_call api share_link model
  end.

(** What happens during the life of the process: tool invocations, and
    changes made from outside the two tools to the process environment
    ([os.environ]) or to the upstream services. *)
Inductive step (U : Type) : Type :=
| Invoke (r : request)
| Putenv (key val : string)
| Unsetenv (key : string)
| Upstream (u : U).
Arguments Invoke {U} r.
Arguments Putenv {U} key val.
Arguments Unsetenv {U} key.
Arguments Upstream {U} u.

Definition response : Type := list event * outcome value.

(** One step.  Here a tool invocation only reads the world; that the
    source changes nothing of what the interpreter keeps is derived in
    [Stateful] below. *)
Definition exec {U} (api : douyin_api U) (w : world U) (s : step U)
    : world U * option response :=
  match s with
  | Invoke r => (w, Some (dispatch api r w))
  | Putenv k v => (World (<[k:=v]> (environ w)) (upstream w), None)
  | Unsetenv k => (World (delete k (environ w)) (upstream w), None)
  | Upstream u => (World (environ w) u, None)
  end.

Fixpoint run {U} (api : douyin_api U) (w : world U) (steps : list (step U))
    : world U * list response :=
  match steps with
  | [] => (w, [])
  | s :: rest =>
      let '(w1, o) := exec api w s in
      let '(w2, rs) := run api w1 rest in
      (w2, option_list o ++ rs)
  end.

(** ** The built-in [int] on the values [os.getenv("PORT", 8000)] yields *)

Module PyInt.

(** [Py_ISSPACE]: tab, line feed, vertical tab, form feed, carriage
    return, space. *)
Definition is_space (c : ascii) : bool :=
  let n := N_of_ascii c in
  ((9 <=? n) && (n <=? 13) || (n =? 32))%N.

Definition digit_value (c : ascii) : option N :=
  let n := N_of_ascii c in
  if ((48 <=? n) && (n <=? 57))%N then Some (n - 48)%N else None.

Fixpoint lstrip (s : string) : string :=
  match s with
  | String c rest => if is_space c then lstrip rest else s
  | EmptyString => EmptyString
  end.

Fixpoint all_space (s : string) : bool :=
  match s with
  | String c rest => is_space c && all_space rest
  | EmptyString => true
  end.

(** The scan over digits and underscores.  [prev_us] tells that the
    previous character was an underscore; [acc] is the value and [digits]
    the number of digits read so far.  The scan stops at the first
    character that is neither and returns what is left of the string. *)
Fixpoint scan (s : string) (prev_us : bool) (acc : N) (digits : N)
    : option (N * N * string) :=
  match s with
  | String c rest =>
      match digit_value c with
      | Some d => scan rest false (acc * 10 + d)%N (digits + 1)%N
      | None =>
          if Ascii.eqb c "_"
          then if prev_us then None else scan rest true acc digits
          else if prev_us then None else Some (acc, digits, s)
      end
  | EmptyString => if prev_us then None else Some (acc, digits, EmptyString)
  end.

(** [sys.get_int_max_str_digits()], at its default. *)
Definition max_str_digits : N := 4300.

Definition unsigned (s : string) : option N :=
  match s with
  | String "_" _ => None
  | _ =>
      match scan s false 0 0 with
      | Some (n, digits, rest) =>
          if (digits =? 0)%N then None
          else if negb (all_space rest) then None
          else if (max_str_digits <? digits)%N then None
          else Some n
      | None => None
      end
  end.

(** [int(s)] for a string of ASCII characters; [None] stands for
    [ValueError].  Python also accepts the decimal digits and the white
    space of Unicode, which this function rejects: it is used below on
    ASCII numerals only. *)
Definition of_string (s : string) : option Z :=
  match lstrip s with
  | String "+" rest => Z.of_N <$> unsigned rest
  | String "-" rest => (λ n, - Z.of_N n)%Z <$> unsigned rest
  | rest => Z.of_N <$> unsigned rest
  end.

(** The error of [int] on a string it rejects.  The text is Python's for
    the strings that [repr] writes between single quotes as they are;
    nothing proved below depends on it. *)
Definition ValueError (s : string) : exn :=
  Exn (ExceptionSub "ValueError")
      ("invalid literal for int() with base 10: '" +:+ s +:+ "'").

Definition type_name (v : value) : string :=
  match v with
  | VNone => "NoneType"
  | VInt _ => "int"
  | VStr _ => "str"
  | VDict _ => "dict"
  end.

Definition TypeError (v : value) : exn :=
  Exn (ExceptionSub "TypeError")
      ("int() argument must be a string, a bytes-like object or a real number, not '"
       +:+ type_name v +:+ "'").

(** [int(v)] *)
Definition int (v : value) : outcome Z :=
  match v with
  | VInt n => Return n
  | VStr s =>
      match of_string s with
      | Some n => Return n
      | None => Raise (ValueError s)
      end
  | _ => Raise (TypeError v)
  end.

End PyInt.

(** ** Start-up: the [__main__] block *)

(** [os.getenv(key, default)] *)
Definition os_getenv_default (env : gmap string string) (key : string)
    (dflt : value) : value :=
  match env !! key with
  | Some s => VStr s
  | None => dflt
  end.

(** What [uvicorn.run] is handed, and what was printed before. *)
Record server : Type := Server {
  host : string;
  port : Z;
  log_level : string;
  stdout : list string
}.

(** The block in an interpreter in its default configuration: [uvicorn]
    can be imported, the standard output accepts the text of the banner,
    and [int] has its default limit on digits. *)
Definition main (env : gmap string string) : outcome server :=
  match PyInt.int (os_getenv_default env "PORT" (VInt 8000)) with
  | Raise e => Raise e
  | RaiseUnprintable e => RaiseUnprintable e
  | Return port =>
      let banner :=
        [ "🚀 启动抖音 MCP 服务器...";
          "📡 监听地址: http://0.0.0.0:" +:+ pretty port;
          "🔗 MCP 端点: http://0.0.0.0:" +:+ pretty port +:+ "/mcp";
          "💚 健康检查: http://0.0.0.0:" +:+ pretty port +:+ "/health";
          "📖 API 文档: http://0.0.0.0:" +:+ pretty port +:+ "/docs" ] in
      let warning :=
        if negb (truthy (env !! "DASHSCOPE_API_KEY"))
        then [ "⚠️  警告：未设置 DASHSCOPE_API_KEY 环境变量";
               "   文本提取功能将无法使用" ]
        else [] in
      Return (Server "0.0.0.0" port "info" (banner ++ warning))
  end.

(** The process from its start: the start-up block runs on the environment
    the process was launched with, then the steps happen. *)
Definition serve {U} (api : douyin_api U) (env0 : gmap string string) (u : U)
    (steps : list (step U)) : outcome (server * list response) :=
  match main env0 with
  | Raise e => Raise e
  | RaiseUnprintable e => RaiseUnprintable e
  | Return srv => Return (srv, snd (run api (World env0 u) steps))
  end.

Definition listening_port (o : outcome server) : option Z :=
  match o with
  | Return srv => Some (port srv)
  | Raise _ => None
  | RaiseUnprintable _ => None
  end.

(** ** What the import and the call of a pipeline function amount to *)

Definition run_get_download_link {U} (api : douyin_api U) (u : U)
    (share_link : string) : outcome value :=
  match import_get_download_link api with
  | Return f => f u share_link
  | Raise e => Raise e
  | RaiseUnprintable e => RaiseUnprintable e
  end.

Definition run_extract_text {U} (api : douyin_api U) (u : U)
    (share_link api_key model : string) : outcome value :=
  match import_extract_text api with
  | Return f => f u share_link api_key model
  | Raise e => Raise e
  | RaiseUnprintable e => RaiseUnprintable e
  end.



Definition error_marker : string := "错误：".

(** [s.startswith(p)] *)
Definition startswith (s p : string) : bool := String.prefix p s.

(** ** The result and the trace of a tool call, in closed form *)

Section Closed.

Context {U : Type} (api : douyin_api U).

Definition error_dict (e : exn) : value :=
  VDict [("error", VStr (str e)); ("message", VStr "获取下载链接失败")].

(** The handler of a tool applied to what the pipeline did; [on_error]
    builds the error value of the tool from an exception that has a
    text. *)
Definition handled (on_error : exn → value) (o : outcome value)
    : outcome value :=
  match o with
  | Return v => Return v
  | Raise e => if isinstance_Exception e then Return (on_error e) else Raise e
  | RaiseUnprintable e' => Raise e'
  end.

(** The credential a call made in world [w] sees. *)
Definition api_key_at (w : world U) : string :=
  as_str (environ w !! "DASHSCOPE_API_KEY").

Definition no_event (kind : event → bool) (trace : list event) : bool :=
  forallb (λ ev, negb (kind ev)) trace.

Definition get_trace (share_link : string) : list event :=
  EvImport "douyin_mcp_server.douyin_api" "get_download_link" ::
  match import_get_download_link api with
  | Return _ => [EvCall "get_download_link" [share_link]]
  | Raise _ => []
  | RaiseUnprintable _ => []
  end.

Definition extract_trace (share_link api_key model : string) : list event :=
  EvGetenv "DASHSCOPE_API_KEY" ::
  EvImport "douyin_mcp_server.douyin_api" "extract_text" ::
  match import_extract_text api with
  | Return _ => [EvCall "extract_text" [share_link; api_key; model]]
  | Raise _ => []
  | RaiseUnprintable _ => []
  end.

End Closed.

(** ** The pipeline as the specification describes it *)

(** Modelled from the spec: the record that the pipeline's
    [get_download_link] produces (VideoMetadata, sections 3 and 6); the
    module [douyin_mcp_server.douyin_api] that builds it is missing. *)
Record VideoMetadata : Type := {
  videoId : string;
  title : string;
  author : string;
  coverUrl : string;
  playUrl : string;
  durationSeconds : Z
}.

Definition metadata_dict (m : VideoMetadata) : value :=
  VDict [ ("videoId", VStr (videoId m));
          ("title", VStr (title m));
          ("author", VStr (author m));
          ("coverUrl", VStr (coverUrl m));
          ("playUrl", VStr (playUrl m));
          ("durationSeconds", VInt (durationSeconds m)) ].

(** Modelled from the spec: the failure taxonomy of section 7; the stages
    that fail this way are in the missing module. *)
Inductive failure : Type :=
| NoLinkFound | RedirectFailed | NoRedirect | IdNotFound
| MetadataUnavailable | ParseError
| DownloadFailed | SizeLimitExceeded | UnsupportedFormat
| MissingCredential | ProviderError | Timeout
| UnknownFailure.

Definition failure_name (f : failure) : string :=
  match f with
  | NoLinkFound => "NoLinkFound"
  | RedirectFailed => "RedirectFailed"
  | NoRedirect => "NoRedirect"
  | IdNotFound => "IdNotFound"
  | MetadataUnavailable => "MetadataUnavailable"
  | ParseError => "ParseError"
  | DownloadFailed => "DownloadFailed"
  | SizeLimitExceeded => "SizeLimitExceeded"
  | UnsupportedFormat => "UnsupportedFormat"
  | MissingCredential => "MissingCredential"
  | ProviderError => "ProviderError"
  | Timeout => "Timeout"
  | UnknownFailure => "UnknownFailure"
  end.

Inductive stage_result (A : Type) : Type :=
| Done (a : A)
| Failed (f : failure) (message : string).
Arguments Done {A} a.
Arguments Failed {A} f message.

(** Modelled from the spec: a stage failure reaches the tool wrapper as a
    raised error carrying a human-readable message. *)
Definition failure_exn (f : failure) (message : string) : exn :=
  Exn (ExceptionSub (failure_name f)) message.

(** Modelled from the spec: the two compositions of the orchestrator
    (section 4.6), stages 1 to 3 and stages 1 to 5, as functions of the
    upstream state. *)
Record pipeline (U : Type) : Type := Pipeline {
  resolve : U → string → stage_result VideoMetadata;
  transcribe : U → string → string → string → stage_result string
}.
Arguments Pipeline {U} resolve transcribe.
Arguments resolve {U} p u share_link.
Arguments transcribe {U} p u share_link api_key model.

Definition api_of_pipeline {U} (p : pipeline U) : douyin_api U :=
  DouyinApi
    (Return (λ u share_link,
       match resolve p u share_link with
       | Done m => Return (metadata_dict m)
       | Failed f msg => Raise (failure_exn f msg)
       end))
    (Return (λ u share_link api_key model,
       match transcribe p u share_link api_key model with
       | Done text => Return (VStr text)
       | Failed f msg => Raise (failure_exn f msg)
       end)).

(** ** Mocked upstreams used in the examples *)

Definition mock_video : VideoMetadata :=
  {| videoId := "123456";
     title := "demo";
     author := "someone";
     coverUrl := "https://x.example/cover/abc.jpg";
     playUrl := "https://x.example/play/abc.mp4";
     durationSeconds := 15 |}.

(** The upstream state of the mocks: is the speech service healthy? *)
Definition mock_pipeline : pipeline bool :=
  Pipeline
    (λ (_ : bool) share_link,
       if String.eqb share_link "" then Failed NoLinkFound "no link found"
       else Done mock_video)
    (λ (healthy : bool) share_link _ _,
       if healthy then Done "hello world"
       else Failed ProviderError "empty transcription result").

Definition mock_api : douyin_api bool := api_of_pipeline mock_pipeline.




Definition share : string := "7.43 复制打开抖音 https://v.douyin.com/iRNBho6u/".

Definition with_key : gmap string string := {[ "DASHSCOPE_API_KEY" := "sk-test" ]}.

(** ** Further parts of [server_http.py] *)

Definition is_call (ev : event) : bool :=
  match ev with EvCall _ _ => true | _ => false end.

(** The pipeline calls in a trace, in order. *)
Definition calls (trace : list event) : list event := List.filter is_call trace.

(** The first line of the warning the start-up block prints. *)
Definition warning_line : string := "⚠️  警告：未设置 DASHSCOPE_API_KEY 环境变量".

(** The bodies of the plain HTTP endpoints are JSON objects. *)
Module Json.

Inductive t : Type :=
| Str (s : string)
| Arr (elems : list t)
| Obj (members : list (string * t)).

Fixpoint member (members : list (string * t)) (k : string) : option t :=
  match members with
  | [] => None
  | (k', v) :: rest => if String.eqb k' k then Some v else member rest k
  end.

(** [o[k]] for an object [o]. *)
Definition field (o : t) (k : string) : option t :=
  match o with
  | Obj members => member members k
  | _ => None
  end.

End Json.

(** [FastAPI(title=..., description=..., version=...)] *)
Definition app_title : string := "Douyin MCP Server".
Definition app_version : string := "1.2.0".

(** The routes the file declares with [@app.get], and the mount point of
    the MCP application. *)
Definition app_routes : list (string * string) :=
  [("GET", "/health"); ("GET", "/")].

Definition app_mounts : list string := ["/mcp"].

(** The tools registered with [@mcp.tool()], under the names of their
    functions. *)
Definition mcp_tools : list string :=
  ["get_douyin_download_link"; "extract_douyin_text"].

Definition health_check : Json.t :=
  Json.Obj [ ("status", Json.Str "healthy");
             ("service", Json.Str "douyin-mcp-server");
             ("version", Json.Str "1.2.0");
             ("mcp_endpoint", Json.Str "/mcp") ].

Definition root : Json.t :=
  Json.Obj [ ("message", Json.Str "抖音 MCP 服务器运行中");
             ("endpoints",
                Json.Obj [ ("health", Json.Str "/health");
                           ("mcp", Json.Str "/mcp");
                           ("docs", Json.Str "/docs") ]);
             ("tools",
                Json.Arr [ Json.Str "get_douyin_download_link";
                           Json.Str "extract_douyin_text" ]) ].

(** A pipeline whose transcript starts with the error marker, and one that
    fails with the rest of that transcript as its message. *)
Definition marker_transcript_api : douyin_api bool :=
  DouyinApi
    (Return (λ _ _,
       Return (VDict [("error", VStr "boom");
                      ("message", VStr "获取下载链接失败")])))
    (Return (λ _ _ _ _, Return (VStr "错误：boom"))).

Definition failing_api : douyin_api bool :=
  DouyinApi
    (Return (λ _ _, Raise (Exn (ExceptionSub "RuntimeError") "boom")))
    (Return (λ _ _ _ _, Raise (Exn (ExceptionSub "RuntimeError") "boom"))).

(** ** The two tools as transformers of the interpreter state *)

(** The reader [M] above gives a tool no way to keep anything between
    two invocations.  Here the same source text is read with every
    statement acting on what the interpreter does keep: the module cache
    [sys.modules] and the module-level names of [server_http.py], which a
    function could rebind or mutate. *)
Module Stateful.

Section Stateful.

Context {U : Type}.

(** [os_environ] is the process environment [os.environ].  [sys_modules]
    holds the loaded module [douyin_mcp_server.douyin_api], if any: what
    its [from ... import name] statements yield.  [globals] holds the
    module-level state of [server_http.py]. *)
Record process : Type := Process {
  os_environ : gmap string string;
  sys_modules : option (douyin_api U);
  globals : gmap string value
}.

(** Computations act on the interpreter state and read the upstream
    state. *)
Definition ST (A : Type) : Type :=
  process → U → process * (list event * outcome A).

#[global] Instance ST_ret : MRet ST := λ A a σ _, (σ, ([], Return a)).

#[global] Instance ST_bind : MBind ST := λ A B f m σ u,
  match m σ u with
  | (σ1, (t, Return a)) =>
      let '(σ2, (t', r)) := f a σ1 u in (σ2, (t ++ t', r))
  | (σ1, (t, Raise e)) => (σ1, (t, Raise e))
  | (σ1, (t, RaiseUnprintable e)) => (σ1, (t, RaiseUnprintable e))
  end.

Definition try_except {A} (body : ST A) (handler : caught → ST A) : ST A :=
  λ σ u,
  match body σ u with
  | (σ1, (t, Return a)) => (σ1, (t, Return a))
  | (σ1, (t, Raise e)) =>
      if isinstance_Exception e
      then let '(σ2, (t', r)) := handler (Printable e) σ1 u in
           (σ2, (t ++ t', r))
      else (σ1, (t, Raise e))
  | (σ1, (t, RaiseUnprintable e')) =>
      let '(σ2, (t', r)) := handler (Unprintable e') σ1 u in
      (σ2, (t ++ t', r))
  end.

Definition py_str (e : caught) : ST string := λ σ _, (σ, ([], call_str e)).

Definition os_getenv (key : string) : ST (option string) := λ σ _,
  (σ, ([EvGetenv key], Return (os_environ σ !! key))).

Definition call (func : string) (args : list string)
    (run : U → outcome value) : ST value :=
  λ σ u, (σ, ([EvCall func args], run u)).

(** What loading the module does when [sys.modules] does not have it: it
    yields the module, or the exception of the failed load. *)
Variable loader : outcome (douyin_api U).

(** [from module import name]: the module is taken from [sys.modules];
    when it is not there it is loaded, and kept if the load succeeded (a
    module whose load failed is not kept, so the next import loads
    again).  [attr] is the lookup of the name in the module. *)
Definition import_from {F} (module name : string)
    (attr : douyin_api U → outcome F) : ST F := λ σ _,
  match sys_modules σ with
  | Some m => (σ, ([EvImport module name], attr m))
  | None =>
      match loader with
      | Return m =>
          (Process (os_environ σ) (Some m) (globals σ),
           ([EvImport module name], attr m))
      | Raise e => (σ, ([EvImport module name], Raise e))
      | RaiseUnprintable e => (σ, ([EvImport module name], RaiseUnprintable e))
      end
  end.

Definition get_douyin_download_link (share_link : string) : ST value :=
  try_except
    (get_download_link ←
       import_from "douyin_mcp_server.douyin_api" "get_download_link"
         import_get_download_link;
     result ← call "get_download_link" [share_link]
                (λ u, get_download_link u share_link);
     mret result)
    (λ e, text ← py_str e;
          mret (VDict [("error", VStr text);
                       ("message", VStr "获取下载链接失败")])).

Definition extract_douyin_text (share_link model : string) : ST value :=
  try_except
    (api_key ← os_getenv "DASHSCOPE_API_KEY";
     if negb (truthy api_key) then mret (VStr missing_key_message)
     else
       extract_text ←
         import_from "douyin_mcp_server.douyin_api" "extract_text"
           import_extract_text;
       result ← call "extract_text" [share_link; as_str api_key; model]
                  (λ u, extract_text u share_link (as_str api_key) model);
       mret result)
    (λ e, text ← py_str e;
          mret (VStr ("错误：" +:+ text))).

Definition extract_douyin_text_call (share_link : string)
    (model : option string) : ST value :=
  extract_douyin_text share_link
    (default extract_douyin_text_model_default model).

Definition dispatch (r : request) : ST value :=
  match r with
  | ReqDownloadLink share_link => get_douyin_download_link share_link
  | ReqExtractText share_link model =>
      extract_douyin_text_call share_link model
  end.

(** A sequence of invocations against one upstream state: each starts
    from the interpreter state the previous one left. *)
Fixpoint run (σ : process) (u : U) (rs : list request)
    : process * list response :=
  match rs with
  | [] => (σ, [])
  | r :: rest =>
      let '(σ1, resp) := dispatch r σ u in
      let '(σ2, resps) := run σ1 u rest in
      (σ2, resp :: resps)
  end.

(** What of the interpreter state the file itself owns or reads. *)
Definition own_state (σ : process)
    : gmap string string * gmap string value :=
  (os_environ σ, globals σ).

(** The module cache holds nothing but what the loader yields. *)
Definition cache_consistent (σ : process) : Prop :=
  match sys_modules σ with
  | None => True
  | Some m => loader = Return m
  end.

(** The import statements of a process whose module cache is consistent,
    as the record the reader model takes. *)
Definition api_of_loader : douyin_api U :=
  match loader with
  | Return m => m
  | Raise e => DouyinApi (Raise e) (Raise e)
  | RaiseUnprintable e => DouyinApi (RaiseUnprintable e) (RaiseUnprintable e)
  end.

End Stateful.

End Stateful.

(** The interpreter right after [server_http.py] was imported, and the
    loader of the mocked pipeline. *)
Definition fresh_process : Stateful.process (U:=bool) :=
  Stateful.Process with_key None ∅.

Definition mock_loader : outcome (douyin_api bool) := Return mock_api.

(** * Properties *)

(** ** What a tool call evaluates to *)

Section ToolLemmas.

Context {U : Type} (api : douyin_api U).

Lemma get_douyin_download_link_eval share_link w :
  get_douyin_download_link api share_link w =
    (get_trace api share_link,
     handled error_dict (run_get_download_link api (upstream w) share_link)).
Proof.
  unfold get_douyin_download_link, try_except, get_trace,
    run_get_download_link, handled, error_dict.
  unfold mbind, M_bind, import_from, call, py_str, mret, M_ret.
  destruct (import_get_download_link api) as [f|e|e]; simpl.
  - destruct (f (upstream w) share_link) as [v|e|e]; simpl; [done| |done].
    by destruct (isinstance_Exception e).
  - by destruct (isinstance_Exception e).
  - done.
Qed.

Lemma extract_douyin_text_falsy share_link model w :
  truthy (environ w !! "DASHSCOPE_API_KEY") = false →
  extract_douyin_text api share_link model w =
    ([EvGetenv "DASHSCOPE_API_KEY"], Return (VStr missing_key_message)).
Proof.
  intros Hk.
  unfold extract_douyin_text, try_except.
  unfold mbind, M_bind, os_getenv, mret, M_ret.
  by rewrite Hk.
Qed.

Lemma extract_douyin_text_truthy share_link model w :
  truthy (environ w !! "DASHSCOPE_API_KEY") = true →
  extract_douyin_text api share_link model w =
    (extract_trace api share_link (api_key_at w) model,
     handled (λ e, VStr (error_marker +:+ str e))
       (run_extract_text api (upstream w) share_link (api_key_at w) model)).
Proof.
  intros Hk.
  unfold extract_douyin_text, try_except, extract_trace, run_extract_text,
    handled, error_marker, api_key_at.
  unfold mbind, M_bind, os_getenv, import_from, call, py_str, mret, M_ret.
  rewrite Hk. simpl negb. cbv iota.
  destruct (import_extract_text api) as [f|e|e]; simpl.
  - destruct (f _ _ _ _) as [v|e|e]; simpl; [done| |done].
    by destruct (isinstance_Exception e).
  - by destruct (isinstance_Exception e).
  - done.
Qed.

Lemma truthy_Some k : k ≠ "" → truthy (Some k) = true.
Proof. by destruct k. Qed.

Lemma truthy_false o : truthy o = false ↔ o = None ∨ o = Some "".
Proof.
  destruct o as [[|c s]|]; simpl.
  - split; [by right | done].
  - split; [done | by intros [?|?]].
  - split; [by left | done].
Qed.

Lemma startswith_app p s : startswith (p +:+ s) p = true.
Proof.
  unfold startswith. induction p as [|c p IH]; simpl.
  - by destruct s.
  - by destruct (ascii_dec c c).
Qed.


End ToolLemmas.

(** ** The claims about the two tools *)

Section ToolTheorems.

Context {U : Type} (api : douyin_api U).


(** C2.  With no credential in the environment, [extract_douyin_text]
    returns the missing-credential message, whatever [share_link] is, and
    the only thing it has done is to read the environment: no import and
    no pipeline call took place. *)
Theorem extract_text_without_credential share_link model w :
  environ w !! "DASHSCOPE_API_KEY" = None →
  extract_douyin_text api share_link model w =
    ([EvGetenv "DASHSCOPE_API_KEY"], Return (VStr missing_key_message)) ∧
  no_event is_pipeline (fst (extract_douyin_text api share_link model w)) = true ∧
  startswith missing_key_message "错误：未设置 DASHSCOPE_API_KEY" = true.
Proof.
  intros Hk.
  assert (truthy (environ w !! "DASHSCOPE_API_KEY") = false) as Hf
    by by rewrite Hk.
  rewrite extract_douyin_text_falsy by done. done.
Qed.


(** C4.  When the pipeline succeeds, each tool returns the pipeline's
    result unchanged (the text tool given a configured credential); when
    the transcription service fails, the text tool returns a string that
    starts with the error marker, not an exception. *)
Theorem success_returned_unchanged share_link model w :
  (∀ v, run_get_download_link api (upstream w) share_link = Return v →
        snd (get_douyin_download_link api share_link w) = Return v) ∧
  (∀ v, truthy (environ w !! "DASHSCOPE_API_KEY") = true →
        run_extract_text api (upstream w) share_link (api_key_at w) model
          = Return v →
        snd (extract_douyin_text api share_link model w) = Return v) ∧
  (∀ msg, truthy (environ w !! "DASHSCOPE_API_KEY") = true →
        run_extract_text api (upstream w) share_link (api_key_at w) model
          = Raise (failure_exn ProviderError msg) →
        ∃ text,
          snd (extract_douyin_text api share_link model w) = Return (VStr text) ∧
          startswith text error_marker = true).
Proof.
  split; [|split].
  - intros v Hr. rewrite get_douyin_download_link_eval. simpl. by rewrite Hr.
  - intros v Hk Hr. rewrite extract_douyin_text_truthy by done. simpl.
    by rewrite Hr.
  - intros msg Hk Hr. rewrite extract_douyin_text_truthy by done. simpl.
    rewrite Hr. simpl. eexists. split; [done|]. apply startswith_app.
Qed.

(** C7.  A call without [model] runs with ["paraformer-v2"], and the
    model of the call is the third argument of the pipeline call, as it
    was given. *)
Theorem model_default_and_pass_through share_link w :
  extract_douyin_text_call api share_link None =
    extract_douyin_text api share_link "paraformer-v2" ∧
  (∀ model, extract_douyin_text_call api share_link (Some model) =
              extract_douyin_text api share_link model) ∧
  (∀ model f,
     truthy (environ w !! "DASHSCOPE_API_KEY") = true →
     import_extract_text api = Return f →
     extract_douyin_text_call api share_link model w =
       ([ EvGetenv "DASHSCOPE_API_KEY";
          EvImport "douyin_mcp_server.douyin_api" "extract_text";
          EvCall "extract_text"
            [share_link; api_key_at w; default "paraformer-v2" model] ],
        handled (λ e, VStr ("错误：" +:+ str e))
          (f (upstream w) share_link (api_key_at w)
             (default "paraformer-v2" model)))).
Proof.
  split; [done|]. split; [done|].
  intros model f Hk Hf. unfold extract_douyin_text_call.
  rewrite extract_douyin_text_truthy by done.
  unfold extract_trace, run_extract_text. by rewrite Hf.
Qed.

(** C10.  An empty credential counts as a missing one: whenever
    [DASHSCOPE_API_KEY] is unset or empty, the text tool returns the fixed
    missing-credential message, which starts with the error marker, and
    does not touch the pipeline; setting the variable to the empty string
    and unsetting it give the same call. *)
Theorem empty_credential_is_missing share_link model w :
  (environ w !! "DASHSCOPE_API_KEY" = None ∨
   environ w !! "DASHSCOPE_API_KEY" = Some "" →
   extract_douyin_text api share_link model w =
     ([EvGetenv "DASHSCOPE_API_KEY"], Return (VStr missing_key_message))) ∧
  startswith missing_key_message error_marker = true ∧
  extract_douyin_text api share_link model
    (World (<["DASHSCOPE_API_KEY" := ""]> (environ w)) (upstream w)) =
  extract_douyin_text api share_link model
    (World (delete "DASHSCOPE_API_KEY" (environ w)) (upstream w)).
Proof.
  split; [|split].
  - intros Hk. apply extract_douyin_text_falsy. by apply truthy_false.
  - done.
  - rewrite !extract_douyin_text_falsy; [done| |]; simpl.
    + by rewrite lookup_delete_eq.
    + by rewrite lookup_insert_eq.
Qed.

End ToolTheorems.


(** ** The running process *)

Section Process.

Context {U : Type} (api : douyin_api U).

Lemma no_getenv_in_get_trace share_link :
  no_event is_getenv (get_trace api share_link) = true.
Proof.
  unfold get_trace. by destruct (import_get_download_link api).
Qed.

(** C6.  The text tool reads the credential from the environment on each
    invocation, as the first thing it does and only once; what it sees is
    the environment at the time of the call, not the one the process was
    started with; the link tool never reads the environment and its
    result does not depend on it. *)
Theorem credential_read_at_call_time share_link model :
  (∀ w, ∃ rest,
     fst (extract_douyin_text_call api share_link model w) =
       EvGetenv "DASHSCOPE_API_KEY" :: rest ∧
     no_event is_getenv rest = true) ∧
  (∀ env0 u srv key,
     main env0 = Return srv →
     env0 !! "DASHSCOPE_API_KEY" = None →
     key ≠ "" →
     serve api env0 u
       [ Invoke (ReqExtractText share_link model);
         Putenv "DASHSCOPE_API_KEY" key;
         Invoke (ReqExtractText share_link model);
         Unsetenv "DASHSCOPE_API_KEY";
         Invoke (ReqExtractText share_link model) ] =
     Return (srv,
       [ ([EvGetenv "DASHSCOPE_API_KEY"], Return (VStr missing_key_message));
         (extract_trace api share_link key
            (default "paraformer-v2" model),
          handled (λ e, VStr ("错误：" +:+ str e))
            (run_extract_text api u share_link key
               (default "paraformer-v2" model)));
         ([EvGetenv "DASHSCOPE_API_KEY"], Return (VStr missing_key_message)) ])) ∧
  (∀ env env' u,
     get_douyin_download_link api share_link (World env u) =
       get_douyin_download_link api share_link (World env' u) ∧
     no_event is_getenv
       (fst (get_douyin_download_link api share_link (World env u))) = true).
Proof.
  split; [|split].
  - intros w. unfold extract_douyin_text_call.
    destruct (truthy (environ w !! "DASHSCOPE_API_KEY")) eqn:Hk.
    + rewrite extract_douyin_text_truthy by done. simpl.
      eexists. split; [done|].
      by destruct (import_extract_text api).
    + rewrite extract_douyin_text_falsy by done. simpl. by eexists.
  - intros env0 u srv key Hmain Hunset Hkey.
    unfold serve. rewrite Hmain. simpl.
    unfold extract_douyin_text_call.
    rewrite (extract_douyin_text_falsy api share_link _ (World env0 u))
      by (simpl; by rewrite Hunset).
    rewrite (extract_douyin_text_truthy api share_link _
               (World (<["DASHSCOPE_API_KEY":=key]> env0) u))
      by (simpl; rewrite lookup_insert_eq; by apply truthy_Some).
    rewrite (extract_douyin_text_falsy api share_link _
               (World (delete "DASHSCOPE_API_KEY"
                         (<["DASHSCOPE_API_KEY":=key]> env0)) u))
      by (simpl; by rewrite lookup_delete_eq).
    unfold api_key_at. simpl. by rewrite lookup_insert_eq.
  - intros env env' u. rewrite !get_douyin_download_link_eval. simpl.
    split; [done|]. apply no_getenv_in_get_trace.
Qed.

End Process.

(** ** Invocations as transformers of the interpreter state *)

Section StatefulProcess.

Context {U : Type}.

Implicit Types (loader : outcome (douyin_api U))
  (σ : Stateful.process (U:=U)).

Local Abbreviation api_of := Stateful.api_of_loader.

(** An invocation, read statement by statement on the interpreter state,
    answers as the reader model says in the world of that moment, leaves
    the environment and the module-level names as they are and keeps the
    module cache consistent. *)
Lemma stateful_get_douyin_download_link loader σ u share_link :
  Stateful.cache_consistent loader σ →
  ∃ σ',
    Stateful.get_douyin_download_link loader share_link σ u =
      (σ', get_douyin_download_link (api_of loader) share_link
             (World (Stateful.os_environ σ) u)) ∧
    Stateful.own_state σ' = Stateful.own_state σ ∧
    Stateful.cache_consistent loader σ'.
Proof.
  unfold Stateful.cache_consistent, Stateful.api_of_loader, Stateful.own_state.
  unfold Stateful.get_douyin_download_link, get_douyin_download_link.
  unfold Stateful.try_except, try_except.
  unfold mbind, Stateful.ST_bind, M_bind, Stateful.import_from, import_from,
    Stateful.call, call, Stateful.py_str, py_str, mret, Stateful.ST_ret, M_ret.
  destruct σ as [env [m|] g]; simpl.
  - intros ->.
    destruct (import_get_download_link m) as [f|e|e]; simpl.
    + destruct (f u share_link) as [v|e|e]; simpl; try by eexists.
      destruct (isinstance_Exception e); simpl; by eexists.
    + destruct (isinstance_Exception e); simpl; by eexists.
    + by eexists.
  - intros _. destruct loader as [m|e|e]; simpl.
    + destruct (import_get_download_link m) as [f|e|e]; simpl.
      * destruct (f u share_link) as [v|e|e]; simpl; try by eexists.
        destruct (isinstance_Exception e); simpl; by eexists.
      * destruct (isinstance_Exception e); simpl; by eexists.
      * by eexists.
    + destruct (isinstance_Exception e); simpl; by eexists.
    + by eexists.
Qed.

Lemma stateful_extract_douyin_text loader σ u share_link model :
  Stateful.cache_consistent loader σ →
  ∃ σ',
    Stateful.extract_douyin_text loader share_link model σ u =
      (σ', extract_douyin_text (api_of loader) share_link model
             (World (Stateful.os_environ σ) u)) ∧
    Stateful.own_state σ' = Stateful.own_state σ ∧
    Stateful.cache_consistent loader σ'.
Proof.
  unfold Stateful.cache_consistent, Stateful.api_of_loader, Stateful.own_state.
  unfold Stateful.extract_douyin_text, extract_douyin_text.
  unfold Stateful.try_except, try_except.
  unfold mbind, Stateful.ST_bind, M_bind, Stateful.os_getenv, os_getenv,
    Stateful.import_from, import_from,
    Stateful.call, call, Stateful.py_str, py_str, mret, Stateful.ST_ret, M_ret.
  destruct σ as [env [m|] g]; simpl;
    destruct (truthy (env !! "DASHSCOPE_API_KEY")); simpl; try by eexists.
  - intros ->.
    destruct (import_extract_text m) as [f|e|e]; simpl.
    + destruct (f _ _ _ _) as [v|e|e]; simpl; try by eexists.
      destruct (isinstance_Exception e); simpl; by eexists.
    + destruct (isinstance_Exception e); simpl; by eexists.
    + by eexists.
  - intros _. destruct loader as [m|e|e]; simpl.
    + destruct (import_extract_text m) as [f|e|e]; simpl.
      * destruct (f _ _ _ _) as [v|e|e]; simpl; try by eexists.
        destruct (isinstance_Exception e); simpl; by eexists.
      * destruct (isinstance_Exception e); simpl; by eexists.
      * by eexists.
    + destruct (isinstance_Exception e); simpl; by eexists.
    + by eexists.
Qed.

Lemma stateful_dispatch loader σ u r :
  Stateful.cache_consistent loader σ →
  ∃ σ',
    Stateful.dispatch loader r σ u =
      (σ', dispatch (api_of loader) r (World (Stateful.os_environ σ) u)) ∧
    Stateful.own_state σ' = Stateful.own_state σ ∧
    Stateful.cache_consistent loader σ'.
Proof.
  destruct r as [share_link|share_link model]; simpl.
  - apply stateful_get_douyin_download_link.
  - apply stateful_extract_douyin_text.
Qed.

Lemma stateful_run loader σ u rs :
  Stateful.cache_consistent loader σ →
  ∃ σ',
    Stateful.run loader σ u rs =
      (σ', map (λ r, dispatch (api_of loader) r
                       (World (Stateful.os_environ σ) u)) rs) ∧
    Stateful.own_state σ' = Stateful.own_state σ ∧
    Stateful.cache_consistent loader σ'.
Proof.
  revert σ. induction rs as [|r rs IH]; intros σ Hσ; simpl.
  - by exists σ.
  - destruct (stateful_dispatch loader σ u r Hσ) as (σ1 & -> & Hg1 & Hσ1).
    destruct (IH σ1 Hσ1) as (σ2 & -> & Hg2 & Hσ2).
    exists σ2.
    assert (Stateful.os_environ σ1 = Stateful.os_environ σ) as ->
      by (by injection Hg1).
    split; [done|]. split; [congruence|done].
Qed.

(** C8.  Start from a process that has not yet imported the pipeline
    module, as it is after start-up, and let any invocations happen.  Two
    later invocations of the link tool with the same [share_link] against
    the same upstream state give the same response, whatever is invoked
    in between.  Each of the two responses is the pipeline's answer at
    that moment passed through the handler, so it comes from a call made
    for that invocation and not from a stored result; and the
    invocations leave the environment and the module-level names as
    they are: of the interpreter state only the module cache may have
    changed, and it does not change the responses. *)
Theorem download_link_idempotent loader env names u share_link
    (before between : list request) :
  ∃ σ' first r middle,
    Stateful.run loader (Stateful.Process env None names) u
      (before ++ ReqDownloadLink share_link :: between ++
       [ReqDownloadLink share_link]) = (σ', first ++ r :: middle ++ [r]) ∧
    length first = length before ∧
    length middle = length between ∧
    r = (get_trace (api_of loader) share_link,
         handled error_dict
           (run_get_download_link (api_of loader) u share_link)) ∧
    Stateful.own_state σ' = (env, names).
Proof.
  destruct (stateful_run loader (Stateful.Process env None names) u
              (before ++ ReqDownloadLink share_link :: between ++
               [ReqDownloadLink share_link]) I) as (σ' & Hrun & Hg & _).
  simpl in Hrun.
  exists σ',
    (map (λ r, dispatch (api_of loader) r (World env u)) before),
    (get_douyin_download_link (api_of loader) share_link (World env u)),
    (map (λ r, dispatch (api_of loader) r (World env u)) between).
  split; [|split; [|split; [|split]]]; try done.
  - rewrite Hrun, map_app. simpl. by rewrite map_app.
  - by rewrite length_map.
  - by rewrite length_map.
  - apply get_douyin_download_link_eval.
Qed.

(** The mocked pipeline, twice: the first invocation loads the module,
    the second finds it in the cache, and the responses are the same. *)
Example download_link_twice :
  Stateful.run mock_loader fresh_process true
    [ReqDownloadLink share; ReqDownloadLink share] =
  (Stateful.Process with_key (Some mock_api) ∅,
   [ ([ EvImport "douyin_mcp_server.douyin_api" "get_download_link";
        EvCall "get_download_link" [share] ],
      Return (metadata_dict mock_video));
     ([ EvImport "douyin_mcp_server.douyin_api" "get_download_link";
        EvCall "get_download_link" [share] ],
      Return (metadata_dict mock_video)) ]).
Proof. reflexivity. Qed.

End StatefulProcess.


(** ** Start-up *)

Section Startup.

Import PyInt.
Local Open Scope N_scope.

Lemma digit_cases d : d < 10 →
  d = 0 ∨ d = 1 ∨ d = 2 ∨ d = 3 ∨ d = 4 ∨ d = 5 ∨ d = 6 ∨ d = 7 ∨ d = 8 ∨ d = 9.
Proof. lia. Qed.

Lemma digit_value_pretty d : d < 10 → digit_value (pretty_N_char d) = Some d.
Proof.
  intros Hd.
  destruct (digit_cases d Hd) as [->|[->|[->|[->|[->|[->|[->|[->|[->| ->]]]]]]]]];
    reflexivity.
Qed.

(** Quotient and remainder by ten, as linear facts. *)
Lemma div_mod_10 x :
  ∃ q r, x `div` 10 = q ∧ x `mod` 10 = r ∧ x = 10 * q + r ∧ r < 10.
Proof.
  exists (x `div` 10), (x `mod` 10). split; [done|]. split; [done|]. split.
  - by apply N.div_mod.
  - by apply N.mod_lt.
Qed.

(** The decimal numeral of a positive number starts with a digit. *)
Lemma pretty_N_go_head x s :
  0 < x → ∃ d rest, d < 10 ∧ pretty_N_go x s = String (pretty_N_char d) rest.
Proof.
  revert s. induction (N.lt_wf_0 x) as [x _ IH]; intros s Hx.
  rewrite pretty_N_go_step by done.
  destruct (div_mod_10 x) as (q & r & -> & -> & Hx10 & Hr).
  destruct (decide (q = 0)) as [->|Hnz].
  - rewrite pretty_N_go_0. by exists r, s.
  - apply IH; lia.
Qed.

(** Scanning the numeral of [x] shifts the accumulator by its [k] digits
    and adds [x]. *)
Lemma scan_pretty_N_go x s prev acc digits :
  0 < x →
  ∃ k, 0 < k ∧ 10 ^ (k - 1) ≤ x ∧
    scan (pretty_N_go x s) prev acc digits =
      scan s false (acc * 10 ^ k + x) (digits + k).
Proof.
  revert s prev acc digits.
  induction (N.lt_wf_0 x) as [x _ IH]; intros s prev acc digits Hx.
  rewrite pretty_N_go_step by done.
  destruct (div_mod_10 x) as (q & r & -> & -> & Hx10 & Hr).
  destruct (decide (q = 0)) as [->|Hnz].
  - rewrite pretty_N_go_0. exists 1. simpl scan.
    rewrite digit_value_pretty by done.
    split; [lia|]. split; [change (10 ^ (1 - 1)) with 1; lia|].
    change (10 ^ 1) with 10. f_equal. lia.
  - destruct (IH q ltac:(lia) (String (pretty_N_char r) s) prev acc digits
                ltac:(lia)) as (k & Hk & Hpow & Hscan).
    exists (k + 1). rewrite Hscan. simpl scan.
    rewrite digit_value_pretty by done.
    split; [lia|]. split.
    + replace (k + 1 - 1) with (N.succ (k - 1)) by lia.
      rewrite N.pow_succ_r'.
      generalize dependent (10 ^ (k - 1)). intros; lia.
    + f_equal; [|lia].
      rewrite N.pow_add_r, N.pow_1_r.
      generalize (10 ^ k). intros; lia.
Qed.

Lemma unsigned_pretty (n : N) :
  n ≤ 65535 → unsigned (pretty n) = Some n.
Proof.
  intros Hn. unfold pretty, pretty_N.
  destruct (decide (n = 0)) as [->|Hnz]; [reflexivity|].
  destruct (pretty_N_go_head n "" ltac:(lia)) as (d & rest & Hd & Hhead).
  destruct (scan_pretty_N_go n "" false 0 0 ltac:(lia))
    as (k & Hk & Hpow & Hscan).
  unfold unsigned. rewrite Hscan. simpl scan.
  assert (k ≤ 5) as Hk5.
  { destruct (decide (k ≤ 5)) as [|Hgt]; [done|].
    assert (10 ^ 5 ≤ 10 ^ (k - 1)) by (apply N.pow_le_mono_r; lia).
    change (10 ^ 5) with 100000 in *. lia. }
  replace (0 * 10 ^ k + n) with n by lia.
  replace (0 + k =? 0) with false by (symmetry; apply N.eqb_neq; lia).
  replace (max_str_digits <? 0 + k) with false
    by (symmetry; apply N.ltb_ge; unfold max_str_digits; lia).
  simpl. rewrite Hhead.
  destruct (digit_cases d Hd) as [->|[->|[->|[->|[->|[->|[->|[->|[->| ->]]]]]]]]];
    reflexivity.
Qed.

Lemma of_string_pretty (n : N) :
  n ≤ 65535 → of_string (pretty n) = Some (Z.of_N n).
Proof.
  intros Hn. pose proof (unsigned_pretty n Hn) as Hu.
  unfold of_string.
  assert (∃ d rest, d < 10 ∧ pretty n = String (pretty_N_char d) rest)
    as (d & rest & Hd & Hhead).
  { unfold pretty, pretty_N. destruct (decide (n = 0)).
    - by exists 0, "".
    - apply pretty_N_go_head. lia. }
  rewrite Hhead in *.
  destruct (digit_cases d Hd) as [->|[->|[->|[->|[->|[->|[->|[->|[->| ->]]]]]]]]];
    simpl lstrip; cbv [pretty_N_char] in Hu; cbv beta iota in Hu |- *;
    by rewrite Hu.
Qed.

(** The start-up block reads the credential too, but only to print a
    warning: what the server is started with does not depend on it. *)
Lemma main_credential_only_warns (env : gmap string string) key :
  listening_port (main (<["DASHSCOPE_API_KEY" := key]> env)) =
    listening_port (main env).
Proof.
  unfold main, os_getenv_default.
  rewrite lookup_insert_ne by done.
  by destruct (int _).
Qed.

(** A value of [PORT] that [int] rejects stops the start-up. *)
Example main_rejects_bad_port :
  main {[ "PORT" := "http" ]} = Raise (ValueError "http") ∧
  main {[ "PORT" := "" ]} = Raise (ValueError "").
Proof. split; reflexivity. Qed.

(** C9.  The port handed to the server is 8000 when [PORT] is unset, and
    the number the variable holds when it is set: it is the result of
    [int] on its value, so a variable set to the decimal numeral of a port
    number gives that port. *)
Theorem port_from_environment (env : gmap string string) :
  (env !! "PORT" = None → listening_port (main env) = Some 8000%Z) ∧
  (∀ s p, env !! "PORT" = Some s → of_string s = Some p →
          listening_port (main env) = Some p) ∧
  (∀ n : N, n ≤ 65535 → env !! "PORT" = Some (pretty n) →
          listening_port (main env) = Some (Z.of_N n)).
Proof.
  assert (∀ s p, env !! "PORT" = Some s → of_string s = Some p →
                 listening_port (main env) = Some p) as Hset.
  { intros s p Hs Hp. unfold main, os_getenv_default, int.
    by rewrite Hs, Hp. }
  split; [|split].
  - intros Hnone. unfold main, os_getenv_default. by rewrite Hnone.
  - done.
  - intros n Hn Hs. eapply Hset; [done|]. by apply of_string_pretty.
Qed.

End Startup.

(** ** The claims at concrete inputs *)



Lemma extract_text_without_credential_witness :
  (∅ : gmap string string) !! "DASHSCOPE_API_KEY" = None ∧
  extract_douyin_text mock_api share "paraformer-v2" (World ∅ true) =
    ([EvGetenv "DASHSCOPE_API_KEY"], Return (VStr missing_key_message)).
Proof.
  split; [reflexivity|].
  apply (extract_text_without_credential mock_api share "paraformer-v2"
           (World ∅ true)).
  reflexivity.
Defined.



Lemma success_returned_unchanged_witness :
  snd (extract_douyin_text mock_api share "paraformer-v2"
         (World with_key true)) = Return (VStr "hello world") ∧
  snd (get_douyin_download_link mock_api share (World ∅ true)) =
    Return (metadata_dict mock_video) ∧
  (∃ text,
     snd (extract_douyin_text mock_api share "paraformer-v2"
            (World with_key false)) = Return (VStr text) ∧
     startswith text error_marker = true).
Proof.
  split; [|split].
  - exact (proj1 (proj2 (success_returned_unchanged mock_api share
             "paraformer-v2" (World with_key true)))
             (VStr "hello world") eq_refl eq_refl).
  - exact (proj1 (success_returned_unchanged mock_api share "paraformer-v2"
             (World ∅ true)) (metadata_dict mock_video) eq_refl).
  - exact (proj2 (proj2 (success_returned_unchanged mock_api share
             "paraformer-v2" (World with_key false)))
             "empty transcription result" eq_refl eq_refl).
Defined.

Lemma model_default_and_pass_through_witness :
  fst (extract_douyin_text_call mock_api share None (World with_key true)) =
    [ EvGetenv "DASHSCOPE_API_KEY";
      EvImport "douyin_mcp_server.douyin_api" "extract_text";
      EvCall "extract_text" [share; "sk-test"; "paraformer-v2"] ] ∧
  fst (extract_douyin_text_call mock_api share (Some "sensevoice-v1")
         (World with_key true)) =
    [ EvGetenv "DASHSCOPE_API_KEY";
      EvImport "douyin_mcp_server.douyin_api" "extract_text";
      EvCall "extract_text" [share; "sk-test"; "sensevoice-v1"] ].
Proof.
  split.
  - exact (f_equal fst
             (proj2 (proj2 (model_default_and_pass_through mock_api share
                (World with_key true))) None _ eq_refl eq_refl)).
  - exact (f_equal fst
             (proj2 (proj2 (model_default_and_pass_through mock_api share
                (World with_key true))) (Some "sensevoice-v1") _
                eq_refl eq_refl)).
Defined.

Lemma empty_credential_is_missing_witness :
  ({[ "DASHSCOPE_API_KEY" := "" ]} : gmap string string)
    !! "DASHSCOPE_API_KEY" = Some "" ∧
  extract_douyin_text mock_api share "paraformer-v2"
    (World {[ "DASHSCOPE_API_KEY" := "" ]} true) =
    ([EvGetenv "DASHSCOPE_API_KEY"], Return (VStr missing_key_message)).
Proof.
  split; [reflexivity|].
  apply (proj1 (empty_credential_is_missing mock_api share "paraformer-v2"
                  (World {[ "DASHSCOPE_API_KEY" := "" ]} true))).
  right. reflexivity.
Defined.

Lemma credential_read_at_call_time_witness :
  ∃ srv,
    main ∅ = Return srv ∧
    serve mock_api ∅ true
      [ Invoke (ReqExtractText share None);
        Putenv "DASHSCOPE_API_KEY" "sk-test";
        Invoke (ReqExtractText share None);
        Unsetenv "DASHSCOPE_API_KEY";
        Invoke (ReqExtractText share None) ] =
    Return (srv,
      [ ([EvGetenv "DASHSCOPE_API_KEY"], Return (VStr missing_key_message));
        ([ EvGetenv "DASHSCOPE_API_KEY";
           EvImport "douyin_mcp_server.douyin_api" "extract_text";
           EvCall "extract_text" [share; "sk-test"; "paraformer-v2"] ],
         Return (VStr "hello world"));
        ([EvGetenv "DASHSCOPE_API_KEY"], Return (VStr missing_key_message)) ]).
Proof.
  eexists. split; [reflexivity|].
  apply (proj1 (proj2 (credential_read_at_call_time mock_api share None))
           ∅ true _ "sk-test"); [reflexivity | reflexivity | discriminate].
Defined.

Lemma port_from_environment_witness :
  listening_port (main ∅) = Some 8000%Z ∧
  listening_port (main {[ "PORT" := "8080" ]}) = Some 8080%Z ∧
  listening_port (main {[ "PORT" := " +8_080 " ]}) = Some 8080%Z.
Proof.
  split; [|split].
  - apply (proj1 (port_from_environment ∅)). reflexivity.
  - apply (proj2 (proj2 (port_from_environment {[ "PORT" := "8080" ]}))
             8080%N); [vm_compute; discriminate | reflexivity].
  - apply (proj1 (proj2 (port_from_environment {[ "PORT" := " +8_080 " ]}))
             " +8_080 "); reflexivity.
Defined.

(** * Further properties of the tool wrappers *)

Section MoreTools.

Context {U : Type} (api : douyin_api U).

Lemma truthy_as_str o : truthy o = true → o = Some (as_str o) ∧ as_str o ≠ "".
Proof. destruct o as [[|c s]|]; simpl; try done. Qed.

(** X1.  An invocation calls the pipeline at most once, whatever the call
    does: the link tool calls [get_download_link] once when the import
    succeeds; the text tool calls [extract_text] once when the credential
    is truthy and the import succeeds; otherwise there is no call.  A
    failed call is not repeated. *)
Theorem one_pipeline_call_per_invocation share_link model w :
  calls (fst (get_douyin_download_link api share_link w)) =
    match import_get_download_link api with
    | Return _ => [EvCall "get_download_link" [share_link]]
    | Raise _ => []
    | RaiseUnprintable _ => []
    end ∧
  calls (fst (extract_douyin_text api share_link model w)) =
    (if truthy (environ w !! "DASHSCOPE_API_KEY")
     then match import_extract_text api with
          | Return _ =>
              [EvCall "extract_text" [share_link; api_key_at w; model]]
          | Raise _ => []
          | RaiseUnprintable _ => []
          end
     else []) ∧
  length (calls (fst (get_douyin_download_link api share_link w))) ≤ 1 ∧
  length (calls (fst (extract_douyin_text api share_link model w))) ≤ 1.
Proof.
  assert (calls (fst (get_douyin_download_link api share_link w)) =
            match import_get_download_link api with
            | Return _ => [EvCall "get_download_link" [share_link]]
            | Raise _ => []
            | RaiseUnprintable _ => []
            end) as Hget.
  { rewrite get_douyin_download_link_eval. unfold get_trace. simpl.
    by destruct (import_get_download_link api). }
  assert (calls (fst (extract_douyin_text api share_link model w)) =
            (if truthy (environ w !! "DASHSCOPE_API_KEY")
             then match import_extract_text api with
                  | Return _ =>
                      [EvCall "extract_text" [share_link; api_key_at w; model]]
                  | Raise _ => []
                  | RaiseUnprintable _ => []
                  end
             else [])) as Hext.
  { destruct (truthy (environ w !! "DASHSCOPE_API_KEY")) eqn:Hk.
    - rewrite extract_douyin_text_truthy by done. unfold extract_trace. simpl.
      by destruct (import_extract_text api).
    - by rewrite extract_douyin_text_falsy by done. }
  split; [done|]. split; [done|]. rewrite Hget, Hext. split.
  - destruct (import_get_download_link api); simpl; lia.
  - destruct (truthy _), (import_extract_text api); simpl; lia.
Qed.

(** X2.  The pipeline is never handed an empty credential: in every call
    of [extract_text] that an invocation makes, the second argument is the
    value [DASHSCOPE_API_KEY] has in the environment at that moment and is
    not the empty string; the first and the third are the [share_link] and
    the [model] of the invocation. *)
Theorem pipeline_gets_the_credential share_link model w func args :
  EvCall func args ∈ fst (extract_douyin_text api share_link model w) →
  ∃ key,
    func = "extract_text" ∧ args = [share_link; key; model] ∧
    environ w !! "DASHSCOPE_API_KEY" = Some key ∧ key ≠ "".
Proof.
  destruct (truthy (environ w !! "DASHSCOPE_API_KEY")) eqn:Hk.
  - rewrite extract_douyin_text_truthy by done.
    unfold extract_trace, api_key_at. simpl.
    destruct (truthy_as_str _ Hk) as [Hsome Hne].
    rewrite !elem_of_cons.
    destruct (import_extract_text api).
    + rewrite list_elem_of_singleton.
      intros [?|[?|Heq]]; [done|done|].
      injection Heq as -> ->. by eexists.
    + rewrite elem_of_nil. intros [?|[?|[]]]; done.
    + rewrite elem_of_nil. intros [?|[?|[]]]; done.
  - rewrite extract_douyin_text_falsy by done. simpl.
    rewrite list_elem_of_singleton. done.
Qed.

(** X3.  The text tool depends on the environment through
    [DASHSCOPE_API_KEY] only: two environments that agree on that variable
    give the same trace and the same result. *)
Theorem text_tool_reads_only_the_credential share_link model env env' u :
  env !! "DASHSCOPE_API_KEY" = env' !! "DASHSCOPE_API_KEY" →
  extract_douyin_text api share_link model (World env u) =
  extract_douyin_text api share_link model (World env' u).
Proof.
  intros Heq.
  destruct (truthy (env !! "DASHSCOPE_API_KEY")) eqn:Hk.
  - rewrite !extract_douyin_text_truthy; simpl; [|by rewrite <- Heq|done].
    unfold api_key_at. simpl. by rewrite Heq.
  - rewrite !extract_douyin_text_falsy; simpl; [done|by rewrite <- Heq|done].
Qed.

End MoreTools.

(** X4.  The result alone does not tell an error from a success whose
    value has the shape of an error: a transcript that starts with the
    marker is returned unchanged and equals the string built for a failure
    with the rest of it as message, and the same holds for a returned
    mapping with the fields [error] and [message]. *)
Theorem error_shape_is_ambiguous {U} (api1 api2 : douyin_api U)
    share_link model w e :
  isinstance_Exception e = true →
  (run_get_download_link api1 (upstream w) share_link =
     Return (VDict [("error", VStr (str e));
                    ("message", VStr "获取下载链接失败")]) →
   run_get_download_link api2 (upstream w) share_link = Raise e →
   snd (get_douyin_download_link api1 share_link w) =
   snd (get_douyin_download_link api2 share_link w)) ∧
  (truthy (environ w !! "DASHSCOPE_API_KEY") = true →
   run_extract_text api1 (upstream w) share_link (api_key_at w) model =
     Return (VStr ("错误：" +:+ str e)) →
   run_extract_text api2 (upstream w) share_link (api_key_at w) model =
     Raise e →
   snd (extract_douyin_text api1 share_link model w) =
   snd (extract_douyin_text api2 share_link model w)).
Proof.
  intros He. split.
  - intros H1 H2. rewrite !get_douyin_download_link_eval. simpl.
    rewrite H1, H2. simpl. by rewrite He.
  - intros Hk H1 H2. rewrite !extract_douyin_text_truthy by done. simpl.
    rewrite H1, H2. simpl. by rewrite He.
Qed.

(** * Further properties of the start-up block and of the endpoints *)

Section MoreStartup.

Import PyInt.

Lemma unsigned_pretty_digits (n : N) :
  (n < 10 ^ max_str_digits)%N → unsigned (pretty n) = Some n.
Proof.
  intros Hn. unfold pretty, pretty_N.
  destruct (decide (n = 0%N)) as [->|Hnz]; [reflexivity|].
  destruct (pretty_N_go_head n "" ltac:(lia)) as (d & rest & Hd & Hhead).
  destruct (scan_pretty_N_go n "" false 0 0 ltac:(lia))
    as (k & Hk & Hpow & Hscan).
  unfold unsigned. rewrite Hscan. simpl scan.
  assert (k ≤ max_str_digits)%N as Hcap.
  { destruct (decide (k ≤ max_str_digits)%N) as [|Hgt]; [done|].
    assert (10 ^ max_str_digits ≤ 10 ^ (k - 1))%N as Hle
      by (apply N.pow_le_mono_r; lia).
    exfalso. revert Hn Hle Hpow.
    generalize (10 ^ max_str_digits)%N (10 ^ (k - 1))%N. lia. }
  replace (0 * 10 ^ k + n)%N with n by lia.
  replace (0 + k =? 0)%N with false by (symmetry; apply N.eqb_neq; lia).
  replace (max_str_digits <? 0 + k)%N with false
    by (symmetry; apply N.ltb_ge; lia).
  simpl. rewrite Hhead.
  destruct (digit_cases d Hd) as [->|[->|[->|[->|[->|[->|[->|[->|[->| ->]]]]]]]]];
    reflexivity.
Qed.

Lemma pretty_N_head (n : N) :
  ∃ d rest, (d < 10)%N ∧ pretty n = String (pretty_N_char d) rest.
Proof.
  unfold pretty, pretty_N. destruct (decide (n = 0%N)).
  - by exists 0%N, "".
  - apply pretty_N_go_head. lia.
Qed.

(** [int] reads back the decimal numeral of every integer within its digit
    limit. *)
Lemma of_string_pretty_Z (z : Z) :
  (Z.abs_N z < 10 ^ max_str_digits)%N → of_string (pretty z) = Some z.
Proof.
  intros Hz. destruct z as [|p|p]; [reflexivity| |].
  - change (pretty (Z.pos p)) with (pretty (N.pos p)).
    pose proof (unsigned_pretty_digits (N.pos p) Hz) as Hu.
    destruct (pretty_N_head (N.pos p)) as (d & rest & Hd & Hhead).
    unfold of_string. rewrite Hhead in *.
    destruct (digit_cases d Hd) as [->|[->|[->|[->|[->|[->|[->|[->|[->| ->]]]]]]]]];
      simpl lstrip; cbv [pretty_N_char] in Hu; cbv beta iota in Hu |- *;
      by rewrite Hu.
  - change (pretty (Z.neg p)) with (String "-" (pretty (N.pos p))).
    pose proof (unsigned_pretty_digits (N.pos p) Hz) as Hu.
    unfold of_string.
    simpl lstrip. cbv beta iota. by rewrite Hu.
Qed.

(** X5.  The start-up block does not check the range of the port: when
    [PORT] holds the decimal numeral of an integer, negative or above
    65535 included, start-up succeeds and hands that integer to the
    server. *)
Theorem port_is_not_range_checked (env : gmap string string) (z : Z) :
  (Z.abs_N z < 10 ^ max_str_digits)%N →
  env !! "PORT" = Some (pretty z) →
  ∃ srv, main env = Return srv ∧ port srv = z ∧ host srv = "0.0.0.0".
Proof.
  intros Hz Hs. unfold main, os_getenv_default, int.
  rewrite Hs, of_string_pretty_Z by done. by eexists.
Qed.

Lemma warning_not_in_banner (p : Z) (rest : list string) :
  warning_line ∈
    "🚀 启动抖音 MCP 服务器..." ::
    ("📡 监听地址: http://0.0.0.0:" +:+ pretty p) ::
    ("🔗 MCP 端点: http://0.0.0.0:" +:+ pretty p +:+ "/mcp") ::
    ("💚 健康检查: http://0.0.0.0:" +:+ pretty p +:+ "/health") ::
    ("📖 API 文档: http://0.0.0.0:" +:+ pretty p +:+ "/docs") :: rest ↔
  warning_line ∈ rest.
Proof.
  rewrite !elem_of_cons. unfold warning_line. split.
  - intros [H|[H|[H|[H|[H|H]]]]]; try discriminate H. done.
  - intros H. by do 5 right.
Qed.

(** X7.  The warning is printed at start-up exactly when the credential
    is unset or empty, that is exactly when a call of the text tool in
    that environment returns the missing-credential message without
    touching the pipeline. *)
Theorem startup_warning_matches_text_tool {U} (api : douyin_api U)
    (env : gmap string string) u share_link model srv :
  main env = Return srv →
  (warning_line ∈ stdout srv ↔
     truthy (env !! "DASHSCOPE_API_KEY") = false) ∧
  (warning_line ∈ stdout srv ↔
     extract_douyin_text api share_link model (World env u) =
       ([EvGetenv "DASHSCOPE_API_KEY"], Return (VStr missing_key_message))).
Proof.
  intros Hmain.
  assert (warning_line ∈ stdout srv ↔
            truthy (env !! "DASHSCOPE_API_KEY") = false) as Hwarn.
  { unfold main in Hmain.
    destruct (int _) as [p|e|e]; [|done|done].
    injection Hmain as <-. cbv beta iota zeta delta [stdout].
    rewrite warning_not_in_banner.
    destruct (truthy (env !! "DASHSCOPE_API_KEY")); simpl.
    - split; [|done]. intros Hin. by apply elem_of_nil in Hin.
    - split; [done|]. intros _. apply list_elem_of_here. }
  split; [done|]. rewrite Hwarn. split.
  - intros Hk. by apply extract_douyin_text_falsy.
  - intros Heq.
    destruct (truthy (env !! "DASHSCOPE_API_KEY")) eqn:Hk; [|done].
    rewrite extract_douyin_text_truthy in Heq by done.
    unfold extract_trace in Heq. discriminate.
Qed.


End MoreStartup.

(** X9.  What the informational endpoints advertise is what the file sets
    up: the tools listed by the root endpoint are the registered tools in
    their order, its [health] and [mcp] entries and the [mcp_endpoint] of
    the health check are a declared route and the mount point, and the
    health check reports the version the application was created with. *)
Theorem endpoints_advertise_what_is_served :
  Json.field root "tools" = Some (Json.Arr (map Json.Str mcp_tools)) ∧
  (∃ eps h m,
     Json.field root "endpoints" = Some eps ∧
     Json.field eps "health" = Some (Json.Str h) ∧ ("GET", h) ∈ app_routes ∧
     Json.field eps "mcp" = Some (Json.Str m) ∧ m ∈ app_mounts ∧
     Json.field health_check "mcp_endpoint" = Some (Json.Str m)) ∧
  Json.field health_check "version" = Some (Json.Str app_version).
Proof.
  split; [reflexivity|]. split; [|reflexivity].
  eexists _, _, _. repeat split; try reflexivity.
  - apply list_elem_of_here.
  - apply list_elem_of_here.
Qed.

(** ** The further properties at concrete inputs *)

Lemma pipeline_gets_the_credential_witness :
  ∃ key,
    "extract_text" = "extract_text" ∧
    [share; "sk-test"; "paraformer-v2"] = [share; key; "paraformer-v2"] ∧
    with_key !! "DASHSCOPE_API_KEY" = Some key ∧ key ≠ "".
Proof.
  apply (pipeline_gets_the_credential mock_api share "paraformer-v2"
           (World with_key true) "extract_text"
           [share; "sk-test"; "paraformer-v2"]).
  vm_compute. do 2 apply list_elem_of_further. apply list_elem_of_here.
Defined.

Lemma text_tool_reads_only_the_credential_witness :
  extract_douyin_text mock_api share "paraformer-v2" (World with_key true) =
  extract_douyin_text mock_api share "paraformer-v2"
    (World (<["PORT" := "8080"]> with_key) true).
Proof.
  apply (text_tool_reads_only_the_credential mock_api share "paraformer-v2"
           with_key (<["PORT" := "8080"]> with_key) true).
  reflexivity.
Defined.

Lemma error_shape_is_ambiguous_witness :
  snd (get_douyin_download_link marker_transcript_api share
         (World with_key true)) =
  snd (get_douyin_download_link failing_api share (World with_key true)) ∧
  snd (extract_douyin_text marker_transcript_api share "paraformer-v2"
         (World with_key true)) =
  snd (extract_douyin_text failing_api share "paraformer-v2"
         (World with_key true)).
Proof.
  split.
  - exact (proj1 (error_shape_is_ambiguous marker_transcript_api failing_api
             share "paraformer-v2" (World with_key true)
             (Exn (ExceptionSub "RuntimeError") "boom") eq_refl)
             eq_refl eq_refl).
  - exact (proj2 (error_shape_is_ambiguous marker_transcript_api failing_api
             share "paraformer-v2" (World with_key true)
             (Exn (ExceptionSub "RuntimeError") "boom") eq_refl)
             eq_refl eq_refl eq_refl).
Defined.

Lemma port_is_not_range_checked_witness :
  (∃ srv, main {[ "PORT" := "-1" ]} = Return srv ∧
          port srv = (-1)%Z ∧ host srv = "0.0.0.0") ∧
  (∃ srv, main {[ "PORT" := "70000" ]} = Return srv ∧
          port srv = 70000%Z ∧ host srv = "0.0.0.0").
Proof.
  split.
  - apply (port_is_not_range_checked {[ "PORT" := "-1" ]} (-1));
      vm_compute; reflexivity.
  - apply (port_is_not_range_checked {[ "PORT" := "70000" ]} 70000);
      vm_compute; reflexivity.
Defined.

Lemma startup_warning_matches_text_tool_witness :
  ∃ srv,
    main ∅ = Return srv ∧
    (warning_line ∈ stdout srv ↔
       truthy ((∅ : gmap string string) !! "DASHSCOPE_API_KEY") = false) ∧
    (warning_line ∈ stdout srv ↔
       extract_douyin_text mock_api share "paraformer-v2" (World ∅ true) =
         ([EvGetenv "DASHSCOPE_API_KEY"], Return (VStr missing_key_message))).
Proof.
  eexists. split; [reflexivity|].
  apply (startup_warning_matches_text_tool mock_api ∅ true share
           "paraformer-v2").
  reflexivity.
Defined.

